(** * run-evaluator.py: the slide-evaluator orchestration script

    A shallow embedding of [.github/workflows/run-evaluator.py] and the
    properties of the evaluator command line it builds.

    The script is straight-line Python.  It is embedded statement by
    statement as computations of a small monad [Py] over

    - a store of list objects ([sys.argv], [EXTRA_OPTIONS], the argument
      list of the [Options] object, [SUBPROCESS]), addressed by reference so
      that [list.extend] and [list.append] mutate in place;
    - the module globals the script binds;
    - the trace of calls made to the outside world, each with its answer.

    The outside world (the driver manager, the Selenium constructor, the
    file system behind [Path.resolve], the evaluator binary) is a [World]:
    one oracle per external call, which may depend on everything that
    happened before.  Every theorem quantifies over all worlds.  The imports
    of lines 1-9 are taken to succeed.

    What the Selenium constructor does to the driver server inside the one
    call of lines 27-28 is library behaviour; it is spelled out separately,
    as [constructor_traffic], and used only where the traffic to the server
    is the subject. *)

From Stdlib Require Import ZArith Ascii String List DecimalString Lia.
From stdpp Require Import gmap strings list.

Local Open Scope string_scope.
Local Open Scope list_scope.

(** ** Python values that occur in the script *)

(** [pathlib.Path(s)] on a POSIX host; [fspath] is the string it was built
    from. *)
Record PosixPath := Path { fspath : string }.

(** Elements of the lists the script handles are [str] or [Path]. *)
Inductive value :=
| VStr (s : string)
| VPath (p : PosixPath).

(** [Path(x)] accepts a string or a path-like object. *)
Definition Path_of (v : value) : PosixPath :=
  match v with
  | VStr s => Path s
  | VPath p => p
  end.

(** [Path.is_absolute()] on POSIX: the path has a root. *)
Definition is_absolute (p : PosixPath) : bool :=
  match fspath p with
  | String "/"%char _ => true
  | _ => false
  end.

(** [selenium.webdriver.chrome.service.Service(executable_path, port=...)]. *)
Record Service := { executable_path : string; port : Z }.

(** The object returned by [webdriver.Chrome(...)]. *)
Inductive WebDriver := Session (id : nat).

(** [str(n)] for an [int], as an f-string field renders it. *)
Definition format_int (n : Z) : string := NilZero.string_of_int (Z.to_int n).

(** ** Exceptions *)

Inductive exn :=
| IndexError           (* list index out of range *)
| NameError            (* a global read before it is bound *)
| SystemError          (* a reference to no object: unreachable *)
| InstallError         (* ChromeDriverManager().install() raised *)
| WebDriverException   (* webdriver.Chrome(...) raised *)
| ResolveError         (* Path.resolve() raised *)
| LaunchError.         (* subprocess.run could not create the child *)

Inductive res (A : Type) :=
| Ok (a : A)
| Raise (e : exn).
Arguments Ok {A} a.
Arguments Raise {A} e.

(** ** Calls to the outside world *)

Inductive event :=
| EvGetLogger
| EvBasicConfig
| EvDebug (extra : list value)
| EvInstall (answer : option string)
| EvChrome (service : Service) (arguments : list value) (answer : option WebDriver)
| EvResolve (p : PosixPath) (answer : option PosixPath)
| EvRun (cmd : list value) (returncode : option Z).

(** One oracle per external call.  The first argument is the trace so far;
    [None] stands for a raised exception.  [run] answers with the
    [returncode] of the completed child process. *)
Record World := {
  install : list event -> option string;
  Chrome : list event -> Service -> list value -> option WebDriver;
  resolve : list event -> PosixPath -> option PosixPath;
  run : list event -> list value -> option Z
}.

(** ** Machine state *)

(** The module globals, unbound ([None]) until assigned. *)
Record Globals := {
  PORT : option Z;
  BOOK_DIRECTORY : option PosixPath;
  VIOLATIONS_FILE : option PosixPath;
  EXTRA_OPTIONS : option nat;
  options : option nat;
  chrome_driver : option string;
  driver : option WebDriver;
  SUBPROCESS : option nat
}.

Definition unbound : Globals :=
  {| PORT := None; BOOK_DIRECTORY := None; VIOLATIONS_FILE := None;
     EXTRA_OPTIONS := None; options := None; chrome_driver := None;
     driver := None; SUBPROCESS := None |}.

Definition bind_PORT (v : Z) (g : Globals) : Globals :=
  {| PORT := Some v; BOOK_DIRECTORY := BOOK_DIRECTORY g;
     VIOLATIONS_FILE := VIOLATIONS_FILE g; EXTRA_OPTIONS := EXTRA_OPTIONS g;
     options := options g; chrome_driver := chrome_driver g;
     driver := driver g; SUBPROCESS := SUBPROCESS g |}.

Definition bind_BOOK_DIRECTORY (v : PosixPath) (g : Globals) : Globals :=
  {| PORT := PORT g; BOOK_DIRECTORY := Some v;
     VIOLATIONS_FILE := VIOLATIONS_FILE g; EXTRA_OPTIONS := EXTRA_OPTIONS g;
     options := options g; chrome_driver := chrome_driver g;
     driver := driver g; SUBPROCESS := SUBPROCESS g |}.

Definition bind_VIOLATIONS_FILE (v : PosixPath) (g : Globals) : Globals :=
  {| PORT := PORT g; BOOK_DIRECTORY := BOOK_DIRECTORY g;
     VIOLATIONS_FILE := Some v; EXTRA_OPTIONS := EXTRA_OPTIONS g;
     options := options g; chrome_driver := chrome_driver g;
     driver := driver g; SUBPROCESS := SUBPROCESS g |}.

Definition bind_EXTRA_OPTIONS (v : nat) (g : Globals) : Globals :=
  {| PORT := PORT g; BOOK_DIRECTORY := BOOK_DIRECTORY g;
     VIOLATIONS_FILE := VIOLATIONS_FILE g; EXTRA_OPTIONS := Some v;
     options := options g; chrome_driver := chrome_driver g;
     driver := driver g; SUBPROCESS := SUBPROCESS g |}.

Definition bind_options (v : nat) (g : Globals) : Globals :=
  {| PORT := PORT g; BOOK_DIRECTORY := BOOK_DIRECTORY g;
     VIOLATIONS_FILE := VIOLATIONS_FILE g; EXTRA_OPTIONS := EXTRA_OPTIONS g;
     options := Some v; chrome_driver := chrome_driver g;
     driver := driver g; SUBPROCESS := SUBPROCESS g |}.

Definition bind_chrome_driver (v : string) (g : Globals) : Globals :=
  {| PORT := PORT g; BOOK_DIRECTORY := BOOK_DIRECTORY g;
     VIOLATIONS_FILE := VIOLATIONS_FILE g; EXTRA_OPTIONS := EXTRA_OPTIONS g;
     options := options g; chrome_driver := Some v;
     driver := driver g; SUBPROCESS := SUBPROCESS g |}.

Definition bind_driver (v : WebDriver) (g : Globals) : Globals :=
  {| PORT := PORT g; BOOK_DIRECTORY := BOOK_DIRECTORY g;
     VIOLATIONS_FILE := VIOLATIONS_FILE g; EXTRA_OPTIONS := EXTRA_OPTIONS g;
     options := options g; chrome_driver := chrome_driver g;
     driver := Some v; SUBPROCESS := SUBPROCESS g |}.

Definition bind_SUBPROCESS (v : nat) (g : Globals) : Globals :=
  {| PORT := PORT g; BOOK_DIRECTORY := BOOK_DIRECTORY g;
     VIOLATIONS_FILE := VIOLATIONS_FILE g; EXTRA_OPTIONS := EXTRA_OPTIONS g;
     options := options g; chrome_driver := chrome_driver g;
     driver := driver g; SUBPROCESS := Some v |}.

(** [heap] holds the list objects; [fresh] is the next unused reference. *)
Record Machine := {
  heap : gmap nat (list value);
  fresh : nat;
  globals : Globals;
  trace : list event
}.

Definition with_heap (h : gmap nat (list value)) (m : Machine) : Machine :=
  {| heap := h; fresh := fresh m; globals := globals m; trace := trace m |}.

Definition with_globals (g : Globals) (m : Machine) : Machine :=
  {| heap := heap m; fresh := fresh m; globals := g; trace := trace m |}.

Definition record (e : event) (m : Machine) : Machine :=
  {| heap := heap m; fresh := fresh m; globals := globals m;
     trace := trace m ++ [e] |}.

(** ** The monad of script computations *)

Definition Py (A : Type) : Type := World -> Machine -> Machine * res A.

#[export] Instance Py_ret : MRet Py := fun A a _ m => (m, Ok a).

#[export] Instance Py_bind : MBind Py := fun A B k c w m =>
  match c w m with
  | (m', Ok a) => k a w m'
  | (m', Raise e) => (m', Raise e)
  end.

Definition raise {A : Type} (e : exn) : Py A := fun _ m => (m, Raise e).

(** Reading and binding a global. *)
Definition read {A : Type} (name : Globals -> option A) : Py A := fun _ m =>
  match name (globals m) with
  | Some a => (m, Ok a)
  | None => (m, Raise NameError)
  end.

Definition assign (set : Globals -> Globals) : Py unit := fun _ m =>
  (with_globals (set (globals m)) m, Ok tt).

(** List objects. *)
Definition new_list (l : list value) : Py nat := fun _ m =>
  ({| heap := <[fresh m := l]> (heap m); fresh := S (fresh m);
      globals := globals m; trace := trace m |}, Ok (fresh m)).

Definition contents (r : nat) : Py (list value) := fun _ m =>
  match heap m !! r with
  | Some l => (m, Ok l)
  | None => (m, Raise SystemError)
  end.

Definition overwrite (r : nat) (l : list value) : Py unit := fun _ m =>
  (with_heap (<[r := l]> (heap m)) m, Ok tt).

(** [l[i]] for a literal index [i >= 0]. *)
Definition getitem (r : nat) (i : nat) : Py value :=
  l ← contents r;
  match l !! i with
  | Some v => mret v
  | None => raise IndexError
  end.

(** [l[i:]] for a literal [i >= 0]: a new list object. *)
Definition slice_from (r : nat) (i : nat) : Py nat :=
  l ← contents r; new_list (drop i l).

(** [l.append(v)]. *)
Definition append (r : nat) (v : value) : Py unit :=
  l ← contents r; overwrite r (l ++ [v]).

(** [l.extend(other)]. *)
Definition extend (r other : nat) : Py unit :=
  more ← contents other; l ← contents r; overwrite r (l ++ more).

(** External calls: ask the world, record call and answer. *)
Definition emit (e : event) : Py unit := fun _ m => (record e m, Ok tt).

Definition ask {A : Type} (oracle : World -> list event -> option A)
    (ev : option A -> event) (e : exn) : Py A := fun w m =>
  let answer := oracle w (trace m) in
  match answer with
  | Some a => (record (ev answer) m, Ok a)
  | None => (record (ev answer) m, Raise e)
  end.

Definition ChromeDriverManager_install : Py string :=
  ask install EvInstall InstallError.

Definition webdriver_Chrome (s : Service) (opts : nat) : Py WebDriver :=
  arguments ← contents opts;
  ask (fun w t => Chrome w t s arguments) (EvChrome s arguments)
      WebDriverException.

Definition Path_resolve (p : PosixPath) : Py PosixPath :=
  ask (fun w t => resolve w t p) (EvResolve p) ResolveError.

Definition subprocess_run (r : nat) : Py Z :=
  cmd ← contents r;
  ask (fun w t => run w t cmd) (EvRun cmd) LaunchError.

(** [Options()] starts with no arguments; [add_argument] appends one. *)
Definition Options : Py nat := new_list [].

Definition add_argument (opts : nat) (a : string) : Py unit :=
  append opts (VStr a).

(** ** The script, statement by statement *)

(** [sys.argv] is the list object the interpreter creates before the script
    runs. *)
Definition sys_argv : nat := 0.

Definition boot (argv : list string) : Machine :=
  {| heap := {[ sys_argv := VStr <$> argv ]}; fresh := 1;
     globals := unbound; trace := [] |}.

(* line 11: logger = logging.getLogger(__name__) *)
Definition line11 : Py unit := emit EvGetLogger.

(* line 12: logging.basicConfig(encoding="utf-8", level=logging.DEBUG) *)
Definition line12 : Py unit := emit EvBasicConfig.

(* line 14: PORT = 4444 *)
Definition line14 : Py unit := assign (bind_PORT 4444).

(* line 15: BOOK_DIRECTORY = Path(sys.argv[1]) *)
Definition line15 : Py unit :=
  v ← getitem sys_argv 1; assign (bind_BOOK_DIRECTORY (Path_of v)).

(* line 16: VIOLATIONS_FILE = Path(sys.argv[2]) *)
Definition line16 : Py unit :=
  v ← getitem sys_argv 2; assign (bind_VIOLATIONS_FILE (Path_of v)).

(* line 17: EXTRA_OPTIONS = sys.argv[3:] *)
Definition line17 : Py unit :=
  r ← slice_from sys_argv 3; assign (bind_EXTRA_OPTIONS r).

(* line 19: logger.debug(f"using extra options: {EXTRA_OPTIONS}") *)
Definition line19 : Py unit :=
  r ← read EXTRA_OPTIONS; l ← contents r; emit (EvDebug l).

(* line 20: options = Options() *)
Definition line20 : Py unit :=
  r ← Options; assign (bind_options r).

(* line 21: options.add_argument("--headless") *)
Definition line21 : Py unit :=
  r ← read options; add_argument r "--headless".

(* line 22: options.add_argument("--window-size=1920,1080") *)
Definition line22 : Py unit :=
  r ← read options; add_argument r "--window-size=1920,1080".

(* line 25: chrome_driver = ChromeDriverManager().install() *)
Definition line25 : Py unit :=
  p ← ChromeDriverManager_install; assign (bind_chrome_driver p).

(* lines 27-28: driver = webdriver.Chrome(service=Service(chrome_driver,
   port=PORT), options=options) *)
Definition line27 : Py unit :=
  exe ← read chrome_driver;
  n ← read PORT;
  opts ← read options;
  d ← webdriver_Chrome {| executable_path := exe; port := n |} opts;
  assign (bind_driver d).

(* lines 30-37: SUBPROCESS = ["mdbook-slide-evaluator", "--webdriver",
   f"http://localhost:{PORT}", "--export", VIOLATIONS_FILE.resolve()] *)
Definition line30 : Py unit :=
  n ← read PORT;
  f ← read VIOLATIONS_FILE;
  abs ← Path_resolve f;
  r ← new_list [VStr "mdbook-slide-evaluator"; VStr "--webdriver";
                VStr ("http://localhost:" +:+ format_int n);
                VStr "--export"; VPath abs];
  assign (bind_SUBPROCESS r).

(* line 39: SUBPROCESS.extend(EXTRA_OPTIONS) *)
Definition line39 : Py unit :=
  r ← read SUBPROCESS; extra ← read EXTRA_OPTIONS; extend r extra.

(* line 41: SUBPROCESS.append(BOOK_DIRECTORY.resolve()) *)
Definition line41 : Py unit :=
  r ← read SUBPROCESS;
  d ← read BOOK_DIRECTORY;
  abs ← Path_resolve d;
  append r (VPath abs).

(* line 44: subprocess.run(SUBPROCESS) *)
Definition line44 : Py unit :=
  r ← read SUBPROCESS; _ ← subprocess_run r; mret tt.

(** The statements in source order, grouped by stage. *)
Definition preamble : list (Py unit) := [line11; line12; line14].

Definition argument_resolver : list (Py unit) := [line15; line16; line17].

Definition orchestration : list (Py unit) :=
  [line19; line20; line21; line22; line25; line27; line30; line39; line41;
   line44].

Definition script : list (Py unit) :=
  preamble ++ argument_resolver ++ orchestration.

(** Running statements in order; an exception ends the run. *)
Fixpoint exec (w : World) (stmts : list (Py unit)) (m : Machine)
    : Machine * res unit :=
  match stmts with
  | [] => (m, Ok tt)
  | s :: rest =>
      match s w m with
      | (m', Ok _) => exec w rest m'
      | (m', Raise e) => (m', Raise e)
      end
  end.

(** The machine states after each statement that completed. *)
Fixpoint reach (w : World) (stmts : list (Py unit)) (m : Machine)
    : list Machine :=
  match stmts with
  | [] => []
  | s :: rest =>
      match s w m with
      | (m', Ok _) => m' :: reach w rest m'
      | (_, Raise _) => []
      end
  end.

Definition main (w : World) (argv : list string) : Machine * res unit :=
  exec w script (boot argv).

Definition events (w : World) (argv : list string) : list event :=
  trace (fst (main w argv)).

Definition outcome (w : World) (argv : list string) : res unit :=
  snd (main w argv).

(** The interpreter exits with 0 after the last statement and with 1 on an
    uncaught exception. *)
Definition exit_status (r : res unit) : Z :=
  match r with
  | Ok _ => 0
  | Raise _ => 1
  end.

(** ** What a run looks like *)

(** The arguments given to the browser by lines 20-22. *)
Definition browser_arguments : list value :=
  [VStr "--headless"; VStr "--window-size=1920,1080"].

(** The trace up to and including line 19. *)
Definition prologue (extra : list string) : list event :=
  [EvGetLogger; EvBasicConfig; EvDebug (VStr <$> extra)].

(** The trace once the driver has been installed and started. *)
Definition started (extra : list string) (exe : string) (d : WebDriver)
    : list event :=
  prologue extra ++
  [EvInstall (Some exe);
   EvChrome {| executable_path := exe; port := 4444 |} browser_arguments
            (Some d)].

(** The contents of [SUBPROCESS] when line 44 runs it. *)
Definition evaluator_command (export : PosixPath) (extra : list string)
    (book : PosixPath) : list value :=
  [VStr "mdbook-slide-evaluator"; VStr "--webdriver";
   VStr "http://localhost:4444"; VStr "--export"; VPath export]
  ++ (VStr <$> extra) ++ [VPath book].

(** Every run of the script has one of these seven shapes; which one is
    decided by the length of [sys.argv] and by the answers of the world. *)
Inductive Run (w : World) : list string -> list event -> res unit -> Prop :=
| Run_no_book argv :
    (length argv <= 1)%nat ->
    Run w argv [EvGetLogger; EvBasicConfig] (Raise IndexError)
| Run_no_export prog a :
    Run w [prog; a] [EvGetLogger; EvBasicConfig] (Raise IndexError)
| Run_install_raises prog a b extra :
    install w (prologue extra) = None ->
    Run w (prog :: a :: b :: extra)
        (prologue extra ++ [EvInstall None]) (Raise InstallError)
| Run_Chrome_raises prog a b extra exe :
    install w (prologue extra) = Some exe ->
    Chrome w (prologue extra ++ [EvInstall (Some exe)])
           {| executable_path := exe; port := 4444 |} browser_arguments
      = None ->
    Run w (prog :: a :: b :: extra)
        (prologue extra ++
         [EvInstall (Some exe);
          EvChrome {| executable_path := exe; port := 4444 |}
                   browser_arguments None])
        (Raise WebDriverException)
| Run_export_unresolved prog a b extra exe d :
    install w (prologue extra) = Some exe ->
    Chrome w (prologue extra ++ [EvInstall (Some exe)])
           {| executable_path := exe; port := 4444 |} browser_arguments
      = Some d ->
    resolve w (started extra exe d) (Path b) = None ->
    Run w (prog :: a :: b :: extra)
        (started extra exe d ++ [EvResolve (Path b) None])
        (Raise ResolveError)
| Run_book_unresolved prog a b extra exe d export :
    install w (prologue extra) = Some exe ->
    Chrome w (prologue extra ++ [EvInstall (Some exe)])
           {| executable_path := exe; port := 4444 |} browser_arguments
      = Some d ->
    resolve w (started extra exe d) (Path b) = Some export ->
    resolve w (started extra exe d ++ [EvResolve (Path b) (Some export)])
            (Path a) = None ->
    Run w (prog :: a :: b :: extra)
        (started extra exe d ++
         [EvResolve (Path b) (Some export); EvResolve (Path a) None])
        (Raise ResolveError)
| Run_evaluator prog a b extra exe d export book returncode :
    install w (prologue extra) = Some exe ->
    Chrome w (prologue extra ++ [EvInstall (Some exe)])
           {| executable_path := exe; port := 4444 |} browser_arguments
      = Some d ->
    resolve w (started extra exe d) (Path b) = Some export ->
    resolve w (started extra exe d ++ [EvResolve (Path b) (Some export)])
            (Path a) = Some book ->
    run w (started extra exe d ++
           [EvResolve (Path b) (Some export);
            EvResolve (Path a) (Some book)])
        (evaluator_command export extra book) = returncode ->
    Run w (prog :: a :: b :: extra)
        (started extra exe d ++
         [EvResolve (Path b) (Some export); EvResolve (Path a) (Some book);
          EvRun (evaluator_command export extra book) returncode])
        (match returncode with
         | Some _ => Ok tt
         | None => Raise LaunchError
         end).

(** ** A concrete world *)

(** A host whose file system has no symbolic links: [resolve] is lexical,
  relative paths are taken from the working directory [cwd].  The driver
  manager answers [exe], the browser always starts, and the evaluator
  always completes with [returncode]. *)
Module Host.

(** Splits at every slash; [cur] is the component being read. *)
Fixpoint split_slash (cur s : string) : list string :=
  match s with
  | EmptyString => [cur]
  | String c s' =>
      if Ascii.eqb c "/" then cur :: split_slash "" s'
      else split_slash (cur +:+ String c "") s'
  end.

(** Walks the components; [above] holds the directories entered so far,
    innermost first. *)
Fixpoint walk (above parts : list string) : list string :=
  match parts with
  | [] => rev above
  | p :: parts' =>
      if String.eqb p "" || String.eqb p "." then walk above parts'
      else if String.eqb p ".." then walk (tail above) parts'
      else walk (p :: above) parts'
  end.

Definition lexical_resolve (cwd : string) (p : PosixPath) : PosixPath :=
  let s := if is_absolute p then fspath p else cwd +:+ "/" +:+ fspath p in
  Path ("/" +:+ String.concat "/" (walk [] (split_slash "" s))).

Definition world (cwd exe : string) (returncode : Z) : World :=
  {| install := fun _ => Some exe;
     Chrome := fun _ _ _ => Some (Session 0);
     resolve := fun _ p => Some (lexical_resolve cwd p);
     run := fun _ _ => Some returncode |}.

(** The invocation used in the examples: two relative paths and the two
    extra options [--strict --threshold=5]. *)
Definition ci : World := world "/home/runner/work" "/opt/chromedriver" 1.

Definition argv : list string :=
  ["run-evaluator.py"; "book/html"; "../violations.csv";
   "--strict"; "--threshold=5"].

End Host.

(** ** Observations used in the statements *)

(** The invocation parameters as a machine state holds them: the two path
    globals and the contents of the list [EXTRA_OPTIONS] refers to. *)
Definition parameters (m : Machine)
    : option (PosixPath * PosixPath * list value) :=
  match BOOK_DIRECTORY (globals m), VIOLATIONS_FILE (globals m),
        EXTRA_OPTIONS (globals m) with
  | Some d, Some f, Some r =>
      match heap m !! r with
      | Some l => Some (d, f, l)
      | None => None
      end
  | _, _, _ => None
  end.

(** The answers of the provisioning calls in a trace, one per call. *)
Fixpoint install_calls (t : list event) : list (option string) :=
  match t with
  | [] => []
  | EvInstall answer :: t' => answer :: install_calls t'
  | _ :: t' => install_calls t'
  end.

(** Calls that start a process or provision the driver. *)
Definition starts_process (e : event) : bool :=
  match e with
  | EvInstall _ | EvChrome _ _ _ | EvRun _ _ => true
  | _ => false
  end.

(** Calls to [Path.resolve]. *)
Definition is_resolve (e : event) : bool :=
  match e with
  | EvResolve _ _ => true
  | _ => false
  end.

(** A trace with the evaluator's return code blanked out. *)
Definition forget_returncode (e : event) : event :=
  match e with
  | EvRun cmd _ => EvRun cmd None
  | _ => e
  end.

(** The world [w], except that the evaluator, whenever it completes, exits
    with [returncode]. *)
Definition exits_with (returncode : Z) (w : World) : World :=
  {| install := install w;
     Chrome := Chrome w;
     resolve := resolve w;
     run := fun t cmd =>
       match run w t cmd with
       | Some _ => Some returncode
       | None => None
       end |}.

(** No call made before the evaluator is started raises. *)
Definition cooperative (w : World) : Prop :=
  (forall t, is_Some (install w t)) /\
  (forall t s args, is_Some (Chrome w t s args)) /\
  (forall t p, is_Some (resolve w t p)).

(** The documented contract of [Path.resolve]: what it returns is
    absolute. *)
Definition resolve_makes_absolute (w : World) : Prop :=
  forall t p q, resolve w t p = Some q -> is_absolute q = true.

(** ** Hosts on which one stage fails *)

Module Faulty.

(** The driver manager cannot download the driver. *)
Definition offline : World :=
  {| install := fun _ => None;
     Chrome := Chrome Host.ci;
     resolve := resolve Host.ci;
     run := run Host.ci |}.

(** The browser does not start. *)
Definition no_browser : World :=
  {| install := install Host.ci;
     Chrome := fun _ _ _ => None;
     resolve := resolve Host.ci;
     run := run Host.ci |}.

(** [Path.resolve] raises on the book directory [book/html] only. *)
Definition bad_book : World :=
  {| install := install Host.ci;
     Chrome := Chrome Host.ci;
     resolve := fun t p =>
       if String.eqb (fspath p) "book/html" then None
       else resolve Host.ci t p;
     run := run Host.ci |}.

(** The evaluator binary is not on the execution path. *)
Definition no_evaluator : World :=
  {| install := install Host.ci;
     Chrome := Chrome Host.ci;
     resolve := resolve Host.ci;
     run := fun _ _ => None |}.

End Faulty.

(** ** Further observations *)

(** Calls to [webdriver.Chrome]. *)
Definition is_chrome (e : event) : bool :=
  match e with
  | EvChrome _ _ _ => true
  | _ => false
  end.

(** Calls to [subprocess.run]. *)
Definition is_run (e : event) : bool :=
  match e with
  | EvRun _ _ => true
  | _ => false
  end.

(** Calls to [logger.debug]. *)
Definition is_debug (e : event) : bool :=
  match e with
  | EvDebug _ => true
  | _ => false
  end.

(** ** Traffic to the driver server *)







(** * Proofs *)

(** Exposes the next stuck oracle call of a symbolic run. *)
Ltac next_answer :=
  match goal with
  | |- context [match ?o with Some _ => _ | None => _ end] =>
      let E := fresh "E" in destruct o eqn:E
  end.

Lemma main_Run (w : World) (argv : list string) :
  Run w argv (events w argv) (outcome w argv).
Proof.
  destruct argv as [|prog [|a [|b extra]]].
  - apply Run_no_book. simpl. lia.
  - apply Run_no_book. simpl. lia.
  - apply Run_no_export.
  - destruct w as [ins chr rsv rn].
    unfold events, outcome.
    vm_compute. next_answer.
    + vm_compute. next_answer.
      * vm_compute. next_answer.
        -- vm_compute. next_answer.
           ++ vm_compute. next_answer;
                match goal with
                | H : rn _ _ = ?r |- _ =>
                    eapply (Run_evaluator _ prog a b extra _ _ _ _ r); eauto
                end.
           ++ eapply Run_book_unresolved; eauto.
        -- eapply Run_export_unresolved; eauto.
      * eapply Run_Chrome_raises; eauto.
    + eapply Run_install_raises; eauto.
Qed.


(** Case analysis on the shape of the run of [w] on [argv]: the trace and
    the outcome are replaced by what each shape says they are. *)
Ltac shapes w argv :=
  let R := fresh "R" in
  let t := fresh "t" in
  let o := fresh "o" in
  let Ht := fresh "Ht" in
  let Ho := fresh "Ho" in
  pose proof (main_Run w argv) as R;
  remember (events w argv) as t eqn:Ht;
  remember (outcome w argv) as o eqn:Ho;
  clear Ht Ho; inversion R; subst; clear R;
  try match goal with
      | E : (length _ <= 1)%nat |- _ => simpl in E; lia
      end.

(** Searches a concrete trace for the event that [H] says occurs in it. *)
Ltac locate H :=
  unfold started, prologue in H; simpl in H;
  repeat (destruct H as [H | H]; [try discriminate H | ]);
  try contradiction.

(** With three or more tokens on the command line and a cooperative world
    the evaluator is run, and it is the last thing that happens. *)
Lemma cooperative_runs (w : World) (prog a b : string) (extra : list string) :
  cooperative w ->
  exists export book returncode,
    events w (prog :: a :: b :: extra) =
      removelast (events w (prog :: a :: b :: extra)) ++
      [EvRun (evaluator_command export extra book) returncode].
Proof.
  intros (Hi & Hc & Hr).
  shapes w (prog :: a :: b :: extra);
    repeat match goal with
    | E : install w ?t = None |- _ =>
        destruct (Hi t) as [? ?]; congruence
    | E : Chrome w ?t ?s ?o = None |- _ =>
        destruct (Hc t s o) as [? ?]; congruence
    | E : resolve w ?t ?p = None |- _ =>
        destruct (Hr t p) as [? ?]; congruence
    end.
  eexists _, _, _.
  unfold started, prologue. simpl. reflexivity.
Qed.

(** With fewer than three tokens the run stops in the argument resolver. *)
Lemma too_few_arguments (w : World) (argv : list string) :
  (length argv < 3)%nat ->
  events w argv = [EvGetLogger; EvBasicConfig] /\
  outcome w argv = Raise IndexError.
Proof.
  intros Hlen.
  destruct argv as [|prog [|a [|b extra]]]; [ | | | simpl in Hlen; lia];
    split; reflexivity.
Qed.

(** The two exceptions that only an ill-formed machine could cause never
    occur: every global is bound and every reference allocated before the
    script uses it. *)
Lemma no_internal_error (w : World) (argv : list string) :
  outcome w argv <> Raise NameError /\ outcome w argv <> Raise SystemError.
Proof.
  shapes w argv; try (split; discriminate).
  destruct (run w _ _); split; discriminate.
Qed.

(** Closes a goal whose hypothesis [H] finds an event in the trace of a
    run with fewer than three tokens. *)
Ltac few H :=
  match type of H with
  | context [events ?w ?argv] =>
      let Ht := fresh "Ht" in
      destruct (too_few_arguments w argv) as [Ht _];
      [simpl; lia | rewrite Ht in H; locate H]
  end.

(** The command of any [subprocess.run] call the script makes. *)
Lemma command_run (w : World) (prog a b : string) (extra : list string)
    (cmd : list value) (returncode : option Z) :
  In (EvRun cmd returncode) (events w (prog :: a :: b :: extra)) ->
  exists export book,
    In (EvResolve (Path b) (Some export))
       (events w (prog :: a :: b :: extra)) /\
    In (EvResolve (Path a) (Some book))
       (events w (prog :: a :: b :: extra)) /\
    cmd = evaluator_command export extra book.
Proof.
  intros H.
  shapes w (prog :: a :: b :: extra); locate H.
  injection H as <- <-.
  exists export, book. unfold started, prologue. simpl. tauto.
Qed.

(** The service of any [webdriver.Chrome] call the script makes. *)
Lemma service_started (w : World) (argv : list string) (s : Service)
    (args : list value) (d : option WebDriver) :
  In (EvChrome s args d) (events w argv) ->
  exists exe,
    install_calls (events w argv) = [Some exe] /\
    s = {| executable_path := exe; port := 4444 |} /\
    args = browser_arguments.
Proof.
  intros H.
  shapes w argv; locate H; injection H as <- <- <-; eauto.
Qed.

Lemma evaluator_command_length (export book : PosixPath)
    (extra : list string) :
  length (evaluator_command export extra book) = (6 + length extra)%nat.
Proof.
  unfold evaluator_command. simpl.
  rewrite length_app, length_fmap. simpl. lia.
Qed.

(** The example host is cooperative and resolves to absolute paths. *)
Lemma host_cooperative (cwd exe : string) (returncode : Z) :
  cooperative (Host.world cwd exe returncode).
Proof. repeat split; simpl; eauto. Qed.

Lemma host_resolve_absolute (cwd exe : string) (returncode : Z) :
  resolve_makes_absolute (Host.world cwd exe returncode).
Proof. intros t p q [= <-]. reflexivity. Qed.

(** ** The evaluator command *)

(** C1. Whenever the script, called with at least two positional arguments
    [a] and [b] and the extra options [extra], runs a command, that command
    is the evaluator name, [--webdriver] and the endpoint URL, [--export]
    and the resolved export path, the extra options in their order, and the
    resolved book directory as its last element; and in a cooperative world
    it does run one. *)
Theorem evaluator_command_layout (w : World) (prog a b : string)
    (extra : list string) :
  (forall cmd returncode,
     In (EvRun cmd returncode) (events w (prog :: a :: b :: extra)) ->
     exists export book,
       In (EvResolve (Path b) (Some export))
          (events w (prog :: a :: b :: extra)) /\
       In (EvResolve (Path a) (Some book))
          (events w (prog :: a :: b :: extra)) /\
       cmd = [VStr "mdbook-slide-evaluator"; VStr "--webdriver";
              VStr "http://localhost:4444"; VStr "--export"; VPath export]
             ++ (VStr <$> extra) ++ [VPath book] /\
       last cmd = Some (VPath book)) /\
  (cooperative w ->
   exists cmd returncode,
     In (EvRun cmd returncode) (events w (prog :: a :: b :: extra))).
Proof.
  split.
  - intros cmd rc H.
    destruct (command_run w prog a b extra cmd rc H)
      as (export & book & Hb & Ha & ->).
    exists export, book. repeat split; try assumption.
    unfold evaluator_command. rewrite app_assoc. apply last_snoc.
  - intros Hw.
    destruct (cooperative_runs w prog a b extra Hw) as (e & k & rc & ->).
    exists (evaluator_command e extra k), rc.
    apply in_or_app. right. left. reflexivity.
Qed.

Lemma evaluator_command_layout_witness :
  (exists export book,
     In (EvResolve (Path "../violations.csv") (Some export))
        (events Host.ci Host.argv) /\
     In (EvResolve (Path "book/html") (Some book))
        (events Host.ci Host.argv) /\
     [VStr "mdbook-slide-evaluator"; VStr "--webdriver";
      VStr "http://localhost:4444"; VStr "--export";
      VPath (Path "/home/runner/violations.csv");
      VStr "--strict"; VStr "--threshold=5";
      VPath (Path "/home/runner/work/book/html")]
     = [VStr "mdbook-slide-evaluator"; VStr "--webdriver";
        VStr "http://localhost:4444"; VStr "--export"; VPath export]
       ++ (VStr <$> ["--strict"; "--threshold=5"]) ++ [VPath book] /\
     last [VStr "mdbook-slide-evaluator"; VStr "--webdriver";
           VStr "http://localhost:4444"; VStr "--export";
           VPath (Path "/home/runner/violations.csv");
           VStr "--strict"; VStr "--threshold=5";
           VPath (Path "/home/runner/work/book/html")]
     = Some (VPath book)) /\
  (exists cmd returncode,
     In (EvRun cmd returncode) (events Host.ci Host.argv)).
Proof.
  split.
  - apply (proj1 (evaluator_command_layout Host.ci "run-evaluator.py"
                    "book/html" "../violations.csv"
                    ["--strict"; "--threshold=5"]))
      with (returncode := Some 1%Z).
    vm_compute. tauto.
  - apply (proj2 (evaluator_command_layout Host.ci "run-evaluator.py"
                    "book/html" "../violations.csv"
                    ["--strict"; "--threshold=5"])).
    apply host_cooperative.
Defined.

(** C10. With exactly two positional arguments and no extra option, a
    command the script runs has exactly six elements: the evaluator name,
    [--webdriver], [http://localhost:4444], [--export], the resolved export
    path and the resolved book directory, which thus directly follows the
    export path; and in a cooperative world the script does run one. *)
Theorem six_element_command (w : World) (prog a b : string) :
  (forall cmd returncode,
     In (EvRun cmd returncode) (events w [prog; a; b]) ->
     exists export book,
       In (EvResolve (Path b) (Some export)) (events w [prog; a; b]) /\
       In (EvResolve (Path a) (Some book)) (events w [prog; a; b]) /\
       cmd = [VStr "mdbook-slide-evaluator"; VStr "--webdriver";
              VStr "http://localhost:4444"; VStr "--export";
              VPath export; VPath book] /\
       length cmd = 6%nat) /\
  (cooperative w ->
   exists cmd returncode, In (EvRun cmd returncode) (events w [prog; a; b])).
Proof.
  split.
  - intros cmd rc H.
    destruct (command_run w prog a b [] cmd rc H)
      as (export & book & Hb & Ha & ->).
    exists export, book. repeat split; assumption.
  - intros Hw.
    destruct (cooperative_runs w prog a b [] Hw) as (e & k & rc & ->).
    exists (evaluator_command e [] k), rc.
    apply in_or_app. right. left. reflexivity.
Qed.

Lemma six_element_command_witness :
  (exists export book,
     In (EvResolve (Path "../violations.csv") (Some export))
        (events Host.ci ["run-evaluator.py"; "book/html";
                         "../violations.csv"]) /\
     In (EvResolve (Path "book/html") (Some book))
        (events Host.ci ["run-evaluator.py"; "book/html";
                         "../violations.csv"]) /\
     [VStr "mdbook-slide-evaluator"; VStr "--webdriver";
      VStr "http://localhost:4444"; VStr "--export";
      VPath (Path "/home/runner/violations.csv");
      VPath (Path "/home/runner/work/book/html")]
     = [VStr "mdbook-slide-evaluator"; VStr "--webdriver";
        VStr "http://localhost:4444"; VStr "--export";
        VPath export; VPath book] /\
     length [VStr "mdbook-slide-evaluator"; VStr "--webdriver";
             VStr "http://localhost:4444"; VStr "--export";
             VPath (Path "/home/runner/violations.csv");
             VPath (Path "/home/runner/work/book/html")] = 6%nat) /\
  (exists cmd returncode,
     In (EvRun cmd returncode)
        (events Host.ci ["run-evaluator.py"; "book/html";
                         "../violations.csv"])).
Proof.
  split.
  - apply (proj1 (six_element_command Host.ci "run-evaluator.py"
                    "book/html" "../violations.csv"))
      with (returncode := Some 1%Z).
    vm_compute. tauto.
  - apply (proj2 (six_element_command Host.ci "run-evaluator.py"
                    "book/html" "../violations.csv")).
    apply host_cooperative.
Defined.

(** Every recorded answer of [Path.resolve] is an answer of the world. *)
Lemma resolve_answer (w : World) (argv : list string) (p : PosixPath)
    (answer : option PosixPath) :
  In (EvResolve p answer) (events w argv) ->
  exists t, resolve w t p = answer.
Proof.
  intros H.
  shapes w argv; locate H; injection H as <- <-; eauto.
Qed.

(** C2. In a world where [Path.resolve] keeps its contract, the value the
    script places after [--export] and the value it places last in the
    evaluator command are absolute paths, whatever the command line was,
    relative paths included. *)
Theorem command_paths_absolute (w : World) (argv : list string) :
  resolve_makes_absolute w ->
  forall cmd returncode,
    In (EvRun cmd returncode) (events w argv) ->
    exists export book,
      cmd !! 3%nat = Some (VStr "--export") /\
      cmd !! 4%nat = Some (VPath export) /\
      last cmd = Some (VPath book) /\
      is_absolute export = true /\
      is_absolute book = true.
Proof.
  intros Habs cmd rc H.
  destruct argv as [|prog [|a [|b extra]]];
    try (few H; fail).
  destruct (command_run w prog a b extra cmd rc H)
    as (export & book & Hb & Ha & ->).
  apply resolve_answer in Hb as [tb Hb].
  apply resolve_answer in Ha as [ta Ha].
  exists export, book. repeat split.
  - unfold evaluator_command. rewrite app_assoc. apply last_snoc.
  - exact (Habs tb (Path b) export Hb).
  - exact (Habs ta (Path a) book Ha).
Qed.

Lemma command_paths_absolute_witness :
  is_absolute (Path "../violations.csv") = false /\
  is_absolute (Path "book/html") = false /\
  exists export book,
    [VStr "mdbook-slide-evaluator"; VStr "--webdriver";
     VStr "http://localhost:4444"; VStr "--export";
     VPath (Path "/home/runner/violations.csv");
     VStr "--strict"; VStr "--threshold=5";
     VPath (Path "/home/runner/work/book/html")] !! 3%nat
      = Some (VStr "--export") /\
    [VStr "mdbook-slide-evaluator"; VStr "--webdriver";
     VStr "http://localhost:4444"; VStr "--export";
     VPath (Path "/home/runner/violations.csv");
     VStr "--strict"; VStr "--threshold=5";
     VPath (Path "/home/runner/work/book/html")] !! 4%nat
      = Some (VPath export) /\
    last [VStr "mdbook-slide-evaluator"; VStr "--webdriver";
          VStr "http://localhost:4444"; VStr "--export";
          VPath (Path "/home/runner/violations.csv");
          VStr "--strict"; VStr "--threshold=5";
          VPath (Path "/home/runner/work/book/html")]
      = Some (VPath book) /\
    is_absolute export = true /\
    is_absolute book = true.
Proof.
  split; [reflexivity | split; [reflexivity | ]].
  apply (command_paths_absolute Host.ci Host.argv
           (host_resolve_absolute _ _ _)) with (returncode := Some 1%Z).
  vm_compute. tauto.
Defined.

(** ** The driver endpoint *)

(** C3. Whatever the command line, a driver server the script starts is
    started on port 4444, and a command the script runs carries
    [--webdriver] followed by exactly [http://localhost:4444]; and once the
    driver is installed, the server is started. *)
Theorem fixed_port (w : World) (argv : list string) :
  (forall s args d,
     In (EvChrome s args d) (events w argv) -> port s = 4444%Z) /\
  (forall cmd returncode,
     In (EvRun cmd returncode) (events w argv) ->
     cmd !! 1%nat = Some (VStr "--webdriver") /\
     cmd !! 2%nat = Some (VStr "http://localhost:4444")) /\
  (forall prog a b extra exe,
     argv = prog :: a :: b :: extra ->
     install w (prologue extra) = Some exe ->
     exists d,
       In (EvChrome {| executable_path := exe; port := 4444 |}
                    browser_arguments d) (events w argv)).
Proof.
  split; [ | split].
  - intros s args d H.
    destruct (service_started w argv s args d H) as (exe & _ & -> & _).
    reflexivity.
  - intros cmd returncode H.
    destruct argv as [|prog [|a [|b extra]]]; try (few H; fail).
    destruct (command_run w prog a b extra cmd returncode H)
      as (export & book & _ & _ & ->).
    split; reflexivity.
  - intros prog a b extra exe -> Hexe.
    shapes w (prog :: a :: b :: extra); try congruence;
      replace exe0 with exe in * by congruence;
      eexists; unfold started, prologue; simpl; eauto 10.
Qed.

Lemma fixed_port_witness :
  port {| executable_path := "/opt/chromedriver"; port := 4444 |} = 4444%Z /\
  ([VStr "mdbook-slide-evaluator"; VStr "--webdriver";
    VStr "http://localhost:4444"; VStr "--export";
    VPath (Path "/home/runner/violations.csv");
    VStr "--strict"; VStr "--threshold=5";
    VPath (Path "/home/runner/work/book/html")] !! 1%nat
     = Some (VStr "--webdriver") /\
   [VStr "mdbook-slide-evaluator"; VStr "--webdriver";
    VStr "http://localhost:4444"; VStr "--export";
    VPath (Path "/home/runner/violations.csv");
    VStr "--strict"; VStr "--threshold=5";
    VPath (Path "/home/runner/work/book/html")] !! 2%nat
     = Some (VStr "http://localhost:4444")) /\
  exists d,
    In (EvChrome {| executable_path := "/opt/chromedriver"; port := 4444 |}
                 browser_arguments d) (events Host.ci Host.argv).
Proof.
  pose proof (fixed_port Host.ci Host.argv) as (Hport & Hurl & Hlive).
  split; [ | split].
  - apply (Hport _ browser_arguments (Some (Session 0))).
    vm_compute. tauto.
  - apply Hurl with (returncode := Some 1%Z). vm_compute. tauto.
  - apply (Hlive "run-evaluator.py" "book/html" "../violations.csv"
                 ["--strict"; "--threshold=5"]); reflexivity.
Defined.

(** ** The evaluator's exit code *)

(** Once the evaluator has completed, with whatever return code, the script
    ends normally and does nothing more. *)
Lemma after_evaluator (w : World) (argv : list string) (cmd : list value)
    (returncode : Z) :
  In (EvRun cmd (Some returncode)) (events w argv) ->
  outcome w argv = Ok tt /\
  last (events w argv) = Some (EvRun cmd (Some returncode)).
Proof.
  intros H.
  shapes w argv; locate H.
  injection H as <- Hrc. unfold started, prologue. simpl.
  rewrite Hrc. split; reflexivity.
Qed.

(** C4. The script's outcome, its exit status and everything it does are
    the same whatever return code the evaluator completes with: two worlds
    that differ only in that code give the same outcome and the same trace
    up to the code itself; and once the evaluator has completed the script
    exits with status 0, the evaluator's completion being the last event. *)
Theorem exit_code_ignored (w : World) (argv : list string) :
  (forall rc1 rc2,
     outcome (exits_with rc1 w) argv = outcome (exits_with rc2 w) argv /\
     exit_status (outcome (exits_with rc1 w) argv)
       = exit_status (outcome (exits_with rc2 w) argv) /\
     forget_returncode <$> events (exits_with rc1 w) argv
       = forget_returncode <$> events (exits_with rc2 w) argv) /\
  (forall cmd returncode,
     In (EvRun cmd (Some returncode)) (events w argv) ->
     outcome w argv = Ok tt /\
     exit_status (outcome w argv) = 0%Z /\
     last (events w argv) = Some (EvRun cmd (Some returncode))).
Proof.
  split.
  - intros rc1 rc2.
    assert (outcome (exits_with rc1 w) argv = outcome (exits_with rc2 w) argv
            /\ forget_returncode <$> events (exits_with rc1 w) argv
               = forget_returncode <$> events (exits_with rc2 w) argv)
      as [Ho Ht].
    { destruct argv as [|prog [|a [|b extra]]];
        try (match goal with
             | |- context [outcome _ ?l] =>
                 destruct (too_few_arguments (exits_with rc1 w) l)
                   as [-> ->]; [simpl; lia | ];
                 destruct (too_few_arguments (exits_with rc2 w) l)
                   as [-> ->]; [simpl; lia | ]
             end; split; reflexivity).
      shapes (exits_with rc1 w) (prog :: a :: b :: extra);
        shapes (exits_with rc2 w) (prog :: a :: b :: extra);
        simpl in *; simplify_eq; try (split; reflexivity).
      unfold started, prologue; simpl.
      destruct (run w _ _); split; reflexivity. }
    rewrite Ho, Ht. repeat split.
  - intros cmd rc H.
    destruct (after_evaluator w argv cmd rc H) as [Ho Hl].
    rewrite Ho. repeat split. exact Hl.
Qed.

Lemma exit_code_ignored_witness :
  outcome Host.ci Host.argv = Ok tt /\
  exit_status (outcome Host.ci Host.argv) = 0%Z /\
  last (events Host.ci Host.argv)
    = Some (EvRun
              [VStr "mdbook-slide-evaluator"; VStr "--webdriver";
               VStr "http://localhost:4444"; VStr "--export";
               VPath (Path "/home/runner/violations.csv");
               VStr "--strict"; VStr "--threshold=5";
               VPath (Path "/home/runner/work/book/html")] (Some 1%Z)).
Proof.
  apply (proj2 (exit_code_ignored Host.ci Host.argv)).
  vm_compute. tauto.
Defined.

(** ** The argument resolver *)

(** C5. On a command line [prog a b extra...] the argument resolver ends
    with the book directory bound to the path of the first positional token
    [a], the export file to the path of the second, [b], and the extra
    options to the list of all later tokens, unchanged and in order, for any
    tokens whatever; and a command the script runs carries exactly these
    tokens, in that order, from its sixth element on up to the last. *)
Theorem argument_resolver_positional (w : World) (prog a b : string)
    (extra : list string) :
  (exists m,
     exec w (preamble ++ argument_resolver) (boot (prog :: a :: b :: extra))
       = (m, Ok tt) /\
     parameters m = Some (Path a, Path b, VStr <$> extra)) /\
  (forall cmd returncode,
     In (EvRun cmd returncode) (events w (prog :: a :: b :: extra)) ->
     take (length extra) (drop 5 cmd) = VStr <$> extra /\
     length cmd = (6 + length extra)%nat).
Proof.
  split.
  - eexists. split; [vm_compute; reflexivity | vm_compute; reflexivity].
  - intros cmd rc H.
    destruct (command_run w prog a b extra cmd rc H)
      as (export & book & _ & _ & ->).
    split; [ | apply evaluator_command_length].
    unfold evaluator_command. simpl.
    rewrite <- (length_fmap VStr extra). apply take_app_length.
Qed.

Lemma argument_resolver_positional_witness :
  take (length ["--strict"; "--threshold=5"])
       (drop 5 [VStr "mdbook-slide-evaluator"; VStr "--webdriver";
                VStr "http://localhost:4444"; VStr "--export";
                VPath (Path "/home/runner/violations.csv");
                VStr "--strict"; VStr "--threshold=5";
                VPath (Path "/home/runner/work/book/html")])
    = VStr <$> ["--strict"; "--threshold=5"] /\
  length [VStr "mdbook-slide-evaluator"; VStr "--webdriver";
          VStr "http://localhost:4444"; VStr "--export";
          VPath (Path "/home/runner/violations.csv");
          VStr "--strict"; VStr "--threshold=5";
          VPath (Path "/home/runner/work/book/html")]
    = (6 + length ["--strict"; "--threshold=5"])%nat.
Proof.
  apply (proj2 (argument_resolver_positional Host.ci "run-evaluator.py"
                  "book/html" "../violations.csv"
                  ["--strict"; "--threshold=5"]))
    with (returncode := Some 1%Z).
  vm_compute. tauto.
Defined.

(** C6. With no positional token on the command line the script raises
    [IndexError] and exits with status 1 having done nothing but set up
    logging: no provisioning call, no driver server, no subprocess. *)
Theorem missing_book_directory (w : World) (argv : list string) :
  (length argv <= 1)%nat ->
  outcome w argv = Raise IndexError /\
  exit_status (outcome w argv) = 1%Z /\
  events w argv = [EvGetLogger; EvBasicConfig] /\
  Forall (fun e => starts_process e = false) (events w argv).
Proof.
  intros Hlen.
  destruct (too_few_arguments w argv) as [Ht Ho]; [lia | ].
  rewrite Ht, Ho. repeat split. repeat constructor.
Qed.

Lemma missing_book_directory_witness :
  outcome Host.ci ["run-evaluator.py"] = Raise IndexError /\
  exit_status (outcome Host.ci ["run-evaluator.py"]) = 1%Z /\
  events Host.ci ["run-evaluator.py"] = [EvGetLogger; EvBasicConfig] /\
  Forall (fun e => starts_process e = false)
         (events Host.ci ["run-evaluator.py"]).
Proof.
  apply (missing_book_directory Host.ci ["run-evaluator.py"]).
  simpl. lia.
Defined.

(** ** Between starting the driver and running the evaluator *)







(** ** Provisioning *)

(** C8. A run that gets past the argument resolver makes exactly one
    provisioning call, and a driver server the script starts is started
    from the executable path which that call returned. *)
Theorem single_provisioning_call (w : World) (argv : list string) :
  (3 <= length argv)%nat ->
  exists answer,
    install_calls (events w argv) = [answer] /\
    forall s args d,
      In (EvChrome s args d) (events w argv) ->
      answer = Some (executable_path s).
Proof.
  intros Hlen.
  assert (exists answer, install_calls (events w argv) = [answer])
    as [answer Hone].
  { destruct argv as [|prog [|a [|b extra]]]; try (simpl in Hlen; lia).
    shapes w (prog :: a :: b :: extra); eexists; reflexivity. }
  exists answer. split; [exact Hone | ].
  intros s args d H.
  destruct (service_started w argv s args d H) as (exe & Hexe & -> & _).
  rewrite Hexe in Hone. injection Hone as <-. reflexivity.
Qed.

Lemma single_provisioning_call_witness :
  exists answer,
    install_calls (events Host.ci Host.argv) = [answer] /\
    forall s args d,
      In (EvChrome s args d) (events Host.ci Host.argv) ->
      answer = Some (executable_path s).
Proof.
  apply (single_provisioning_call Host.ci Host.argv).
  simpl. lia.
Defined.

(** ** The invocation parameters are not mutated *)

(** Running a concatenation runs its parts in turn. *)
Lemma exec_app (w : World) (first rest : list (Py unit)) (m : Machine) :
  exec w (first ++ rest) m =
    match exec w first m with
    | (m', Ok _) => exec w rest m'
    | (m', Raise e) => (m', Raise e)
    end.
Proof.
  revert m. induction first as [|s first IH]; intros m; simpl.
  - reflexivity.
  - destruct (s w m) as [m' [[]|e]]; [apply IH | reflexivity].
Qed.

(** The states [reach] lists are the ones [exec] goes through: when all
    statements complete, the last state listed is the final one. *)
Lemma reach_last (w : World) (stmts : list (Py unit)) (m m' : Machine) :
  exec w stmts m = (m', Ok tt) ->
  length (reach w stmts m) = length stmts /\
  last (m :: reach w stmts m) = Some m'.
Proof.
  revert m. induction stmts as [|s stmts IH]; intros m; simpl.
  - intros [= <-]. split; reflexivity.
  - destruct (s w m) as [m1 [[]|e]]; [ | discriminate].
    intros H. destruct (IH m1 H) as [Hlen Hlast].
    simpl. rewrite Hlen. split; [reflexivity | exact Hlast].
Qed.

(** [l.extend(other)] changes no list object but [l]. *)
Lemma extend_frame (w : World) (r other k : nat) (m m' : Machine) :
  extend r other w m = (m', Ok tt) ->
  k <> r ->
  heap m' !! k = heap m !! k.
Proof.
  unfold extend, contents, overwrite, mbind, Py_bind.
  destruct (heap m !! other); [ | discriminate].
  destruct (heap m !! r); [ | discriminate].
  intros [= <-] Hk. simpl. apply lookup_insert_ne. congruence.
Qed.

(** [l.append(v)] changes no list object but [l]. *)
Lemma append_frame (w : World) (r k : nat) (v : value) (m m' : Machine) :
  append r v w m = (m', Ok tt) ->
  k <> r ->
  heap m' !! k = heap m !! k.
Proof.
  unfold append, contents, overwrite, mbind, Py_bind.
  destruct (heap m !! r); [ | discriminate].
  intros [= <-] Hk. simpl. apply lookup_insert_ne. congruence.
Qed.

(** C9. Once the argument resolver has bound the book directory, the export
    file and the extra options, every later state of the run holds the same
    three values, and the same [sys.argv]; in particular, after
    [SUBPROCESS.extend(EXTRA_OPTIONS)] the list [EXTRA_OPTIONS] is a
    different object from [SUBPROCESS] and still holds the extra options,
    while [SUBPROCESS] has grown by them. *)
Theorem parameters_never_mutated (w : World) (prog a b : string)
    (extra : list string) :
  exists m0,
    exec w (preamble ++ argument_resolver) (boot (prog :: a :: b :: extra))
      = (m0, Ok tt) /\
    main w (prog :: a :: b :: extra) = exec w orchestration m0 /\
    parameters m0 = Some (Path a, Path b, VStr <$> extra) /\
    heap m0 !! sys_argv = Some (VStr <$> prog :: a :: b :: extra) /\
    Forall (fun m => parameters m = parameters m0 /\
                     heap m !! sys_argv = heap m0 !! sys_argv)
           (reach w orchestration m0) /\
    (forall m, reach w orchestration m0 !! 7%nat = Some m ->
       exists r s export,
         EXTRA_OPTIONS (globals m) = Some r /\
         SUBPROCESS (globals m) = Some s /\
         r <> s /\
         heap m !! r = Some (VStr <$> extra) /\
         heap m !! s =
           Some ([VStr "mdbook-slide-evaluator"; VStr "--webdriver";
                  VStr "http://localhost:4444"; VStr "--export";
                  VPath export] ++ (VStr <$> extra))).
Proof.
  destruct w as [ins chr rsv rn].
  eexists. split; [vm_compute; reflexivity | ].
  split.
  { unfold main, script. rewrite exec_app. reflexivity. }
  split; [vm_compute; reflexivity | ].
  split; [vm_compute; reflexivity | ].
  split.
  - vm_compute. repeat (next_answer; vm_compute);
      repeat (constructor; [split; reflexivity | ]); constructor.
  - intros m. vm_compute. repeat (next_answer; vm_compute);
      intros [= <-]; eexists _, _, _; repeat split; discriminate.
Qed.

Lemma parameters_never_mutated_witness :
  exists m0,
    exec Host.ci (preamble ++ argument_resolver) (boot Host.argv)
      = (m0, Ok tt) /\
    main Host.ci Host.argv = exec Host.ci orchestration m0 /\
    parameters m0
      = Some (Path "book/html", Path "../violations.csv",
              [VStr "--strict"; VStr "--threshold=5"]) /\
    heap m0 !! sys_argv = Some (VStr <$> Host.argv) /\
    Forall (fun m => parameters m = parameters m0 /\
                     heap m !! sys_argv = heap m0 !! sys_argv)
           (reach Host.ci orchestration m0) /\
    (forall m, reach Host.ci orchestration m0 !! 7%nat = Some m ->
       exists r s export,
         EXTRA_OPTIONS (globals m) = Some r /\
         SUBPROCESS (globals m) = Some s /\
         r <> s /\
         heap m !! r = Some (VStr <$> ["--strict"; "--threshold=5"]) /\
         heap m !! s =
           Some ([VStr "mdbook-slide-evaluator"; VStr "--webdriver";
                  VStr "http://localhost:4444"; VStr "--export";
                  VPath export]
                 ++ (VStr <$> ["--strict"; "--threshold=5"]))).
Proof.
  exact (parameters_never_mutated Host.ci "run-evaluator.py" "book/html"
           "../violations.csv" ["--strict"; "--threshold=5"]).
Defined.

(** * Further properties of the script *)

(** ** Missing export path *)

(** With the book directory but no export path on the command line, line 16
    raises [IndexError]: the script exits with status 1 having only set up
    logging. *)
Theorem missing_export_path (w : World) (prog a : string) :
  outcome w [prog; a] = Raise IndexError /\
  exit_status (outcome w [prog; a]) = 1%Z /\
  events w [prog; a] = [EvGetLogger; EvBasicConfig] /\
  Forall (fun e => starts_process e = false) (events w [prog; a]).
Proof.
  destruct (too_few_arguments w [prog; a]) as [Ht Ho]; [simpl; lia | ].
  rewrite Ht, Ho. repeat split. repeat constructor.
Qed.

(** ** The browser arguments *)

(** Whatever the command line, a browser the script starts is given exactly
    the two arguments [--headless] and [--window-size=1920,1080], in this
    order. *)
Theorem browser_started_headless (w : World) (argv : list string)
    (s : Service) (args : list value) (d : option WebDriver) :
  In (EvChrome s args d) (events w argv) ->
  args = [VStr "--headless"; VStr "--window-size=1920,1080"].
Proof.
  intros H.
  destruct (service_started w argv s args d H) as (_ & _ & _ & ->).
  reflexivity.
Qed.

Lemma browser_started_headless_witness :
  browser_arguments = [VStr "--headless"; VStr "--window-size=1920,1080"].
Proof.
  apply (browser_started_headless Host.ci Host.argv
           {| executable_path := "/opt/chromedriver"; port := 4444 |}
           browser_arguments (Some (Session 0))).
  vm_compute. tauto.
Defined.

(** ** Failures stop the run *)

(** If the provisioning call raises, the script stops there with an
    uncaught exception: no browser is started, no path resolved and no
    evaluator run. *)
Theorem provisioning_failure_stops (w : World) (argv : list string) :
  In (EvInstall None) (events w argv) ->
  outcome w argv = Raise InstallError /\
  exit_status (outcome w argv) = 1%Z /\
  last (events w argv) = Some (EvInstall None) /\
  Forall (fun e => is_chrome e = false /\ is_resolve e = false /\
                   is_run e = false) (events w argv).
Proof.
  intros H.
  shapes w argv; locate H.
  unfold prologue. simpl. repeat split. repeat constructor.
Qed.

Lemma provisioning_failure_stops_witness :
  outcome Faulty.offline Host.argv = Raise InstallError /\
  exit_status (outcome Faulty.offline Host.argv) = 1%Z /\
  last (events Faulty.offline Host.argv) = Some (EvInstall None) /\
  Forall (fun e => is_chrome e = false /\ is_resolve e = false /\
                   is_run e = false) (events Faulty.offline Host.argv).
Proof.
  apply (provisioning_failure_stops Faulty.offline Host.argv).
  vm_compute. tauto.
Defined.

(** If [webdriver.Chrome] raises, the script stops there with an uncaught
    exception: no path is resolved and no evaluator run. *)
Theorem driver_failure_stops (w : World) (argv : list string) (s : Service)
    (args : list value) :
  In (EvChrome s args None) (events w argv) ->
  outcome w argv = Raise WebDriverException /\
  exit_status (outcome w argv) = 1%Z /\
  last (events w argv) = Some (EvChrome s args None) /\
  Forall (fun e => is_resolve e = false /\ is_run e = false)
         (events w argv).
Proof.
  intros H.
  shapes w argv; locate H.
  injection H as <- <-.
  unfold prologue. simpl. repeat split. repeat constructor.
Qed.

Lemma driver_failure_stops_witness :
  outcome Faulty.no_browser Host.argv = Raise WebDriverException /\
  exit_status (outcome Faulty.no_browser Host.argv) = 1%Z /\
  last (events Faulty.no_browser Host.argv)
    = Some (EvChrome {| executable_path := "/opt/chromedriver";
                        port := 4444 |} browser_arguments None) /\
  Forall (fun e => is_resolve e = false /\ is_run e = false)
         (events Faulty.no_browser Host.argv).
Proof.
  apply (driver_failure_stops Faulty.no_browser Host.argv).
  vm_compute. tauto.
Defined.

(** If [Path.resolve] raises, on either path, the script stops there with
    an uncaught exception and the evaluator is not run. *)
Theorem resolve_failure_stops (w : World) (argv : list string)
    (p : PosixPath) :
  In (EvResolve p None) (events w argv) ->
  outcome w argv = Raise ResolveError /\
  exit_status (outcome w argv) = 1%Z /\
  last (events w argv) = Some (EvResolve p None) /\
  Forall (fun e => is_run e = false) (events w argv).
Proof.
  intros H.
  shapes w argv; locate H; injection H as <-;
    unfold started, prologue; simpl; repeat split; repeat constructor.
Qed.

Lemma resolve_failure_stops_witness :
  outcome Faulty.bad_book Host.argv = Raise ResolveError /\
  exit_status (outcome Faulty.bad_book Host.argv) = 1%Z /\
  last (events Faulty.bad_book Host.argv)
    = Some (EvResolve (Path "book/html") None) /\
  Forall (fun e => is_run e = false) (events Faulty.bad_book Host.argv).
Proof.
  apply (resolve_failure_stops Faulty.bad_book Host.argv).
  vm_compute. tauto.
Defined.

(** If [subprocess.run] cannot create the child process, the exception is
    not caught: the script exits with status 1. *)
Theorem launch_failure_is_fatal (w : World) (argv : list string)
    (cmd : list value) :
  In (EvRun cmd None) (events w argv) ->
  outcome w argv = Raise LaunchError /\
  exit_status (outcome w argv) = 1%Z /\
  last (events w argv) = Some (EvRun cmd None).
Proof.
  intros H.
  shapes w argv; locate H.
  injection H as <- Hrc. unfold started, prologue. simpl.
  rewrite Hrc. repeat split.
Qed.

Lemma launch_failure_is_fatal_witness :
  outcome Faulty.no_evaluator Host.argv = Raise LaunchError /\
  exit_status (outcome Faulty.no_evaluator Host.argv) = 1%Z /\
  last (events Faulty.no_evaluator Host.argv)
    = Some (EvRun
              [VStr "mdbook-slide-evaluator"; VStr "--webdriver";
               VStr "http://localhost:4444"; VStr "--export";
               VPath (Path "/home/runner/violations.csv");
               VStr "--strict"; VStr "--threshold=5";
               VPath (Path "/home/runner/work/book/html")] None).
Proof.
  apply (launch_failure_is_fatal Faulty.no_evaluator Host.argv).
  vm_compute. tauto.
Defined.

(** ** Success *)

(** The script ends normally, with exit status 0, exactly when the last
    thing it did was wait for an evaluator that completed. *)
Theorem success_iff_evaluator_completed (w : World) (argv : list string) :
  (outcome w argv = Ok tt <->
   exists cmd returncode,
     last (events w argv) = Some (EvRun cmd (Some returncode))) /\
  (exit_status (outcome w argv) = 0%Z <-> outcome w argv = Ok tt).
Proof.
  split.
  - split.
    + shapes w argv; intros Hok; try discriminate Hok.
      unfold started, prologue in *; simpl in *.
      destruct (run w _ _) as [rc|]; [ | discriminate Hok].
      eexists _, rc. reflexivity.
    + shapes w argv; intros (cmd & rc & Hlast);
        unfold started, prologue in *; simpl in *;
        try discriminate Hlast.
      injection Hlast as _ Hrc. rewrite Hrc. reflexivity.
  - destruct (outcome w argv) as [[]|e]; simpl; split; intros H;
      try reflexivity; discriminate H.
Qed.

Lemma success_iff_evaluator_completed_witness :
  outcome Host.ci Host.argv = Ok tt.
Proof.
  apply (proj1 (success_iff_evaluator_completed Host.ci Host.argv)).
  eexists _, _. vm_compute. reflexivity.
Defined.

(** ** The order of the calls *)

(** A run that reaches [subprocess.run] has made, in this order and once
    each: the two logging set-up calls, the debug log of the extra options,
    the provisioning call, the browser start, the resolution of the export
    path, the resolution of the book directory, and the evaluator run. *)
Theorem calls_in_order (w : World) (argv : list string) (cmd : list value)
    (returncode : option Z) :
  In (EvRun cmd returncode) (events w argv) ->
  exists prog a b extra exe d export book,
    argv = prog :: a :: b :: extra /\
    events w argv =
      [EvGetLogger; EvBasicConfig; EvDebug (VStr <$> extra);
       EvInstall (Some exe);
       EvChrome {| executable_path := exe; port := 4444 |}
                [VStr "--headless"; VStr "--window-size=1920,1080"]
                (Some d);
       EvResolve (Path b) (Some export);
       EvResolve (Path a) (Some book);
       EvRun cmd returncode].
Proof.
  intros H.
  shapes w argv; locate H.
  injection H as <- <-.
  eexists prog, a, b, extra, exe, d, export, book.
  split; reflexivity.
Qed.

Lemma calls_in_order_witness :
  exists prog a b extra exe d export book,
    Host.argv = prog :: a :: b :: extra /\
    events Host.ci Host.argv =
      [EvGetLogger; EvBasicConfig; EvDebug (VStr <$> extra);
       EvInstall (Some exe);
       EvChrome {| executable_path := exe; port := 4444 |}
                [VStr "--headless"; VStr "--window-size=1920,1080"]
                (Some d);
       EvResolve (Path b) (Some export);
       EvResolve (Path a) (Some book);
       EvRun [VStr "mdbook-slide-evaluator"; VStr "--webdriver";
              VStr "http://localhost:4444"; VStr "--export";
              VPath (Path "/home/runner/violations.csv");
              VStr "--strict"; VStr "--threshold=5";
              VPath (Path "/home/runner/work/book/html")] (Some 1%Z)].
Proof.
  apply (calls_in_order Host.ci Host.argv).
  vm_compute. tauto.
Defined.

(** ** What the script does not look at *)

(** The script never reads [sys.argv[0]]: two command lines that differ
    only in the program name give the same calls and the same outcome. *)
Theorem program_name_ignored (w : World) (prog prog' : string)
    (args : list string) :
  events w (prog :: args) = events w (prog' :: args) /\
  outcome w (prog :: args) = outcome w (prog' :: args).
Proof.
  destruct args as [|a [|b extra]]; try (split; reflexivity).
  shapes w (prog :: a :: b :: extra); shapes w (prog' :: a :: b :: extra);
    simplify_eq; split; reflexivity.
Qed.

(** [Path.resolve] is applied to the two positional paths and to nothing
    else: an extra option is never resolved, even if it names a path. *)
Theorem only_positional_paths_resolved (w : World) (argv : list string)
    (p : PosixPath) (answer : option PosixPath) :
  In (EvResolve p answer) (events w argv) ->
  exists prog a b extra,
    argv = prog :: a :: b :: extra /\ (p = Path b \/ p = Path a).
Proof.
  intros H.
  shapes w argv; locate H; injection H as <- <-;
    eexists _, _, _, _; split; try reflexivity; tauto.
Qed.

Lemma only_positional_paths_resolved_witness :
  exists prog a b extra,
    Host.argv = prog :: a :: b :: extra /\
    (Path "book/html" = Path b \/ Path "book/html" = Path a).
Proof.
  apply (only_positional_paths_resolved Host.ci Host.argv (Path "book/html")
           (Some (Path "/home/runner/work/book/html"))).
  vm_compute. tauto.
Defined.

(** ** The debug log *)

(** With three or more tokens on the command line the script logs the extra
    options once, right after setting up logging and before any other call;
    with fewer it logs nothing. *)
Theorem debug_logs_extra_options (w : World) (argv : list string) :
  (forall prog a b extra,
     argv = prog :: a :: b :: extra ->
     exists later,
       events w argv =
         [EvGetLogger; EvBasicConfig; EvDebug (VStr <$> extra)] ++ later /\
       Forall (fun e => is_debug e = false) later) /\
  ((length argv < 3)%nat ->
   Forall (fun e => is_debug e = false) (events w argv)).
Proof.
  split.
  - intros prog a b extra ->.
    shapes w (prog :: a :: b :: extra);
      unfold started, prologue; simpl;
      eexists; (split; [reflexivity | repeat constructor]).
  - intros Hlen.
    destruct (too_few_arguments w argv Hlen) as [-> _].
    repeat constructor.
Qed.

Lemma debug_logs_extra_options_witness :
  (exists later,
     events Host.ci Host.argv =
       [EvGetLogger; EvBasicConfig;
        EvDebug (VStr <$> ["--strict"; "--threshold=5"])] ++ later /\
     Forall (fun e => is_debug e = false) later) /\
  Forall (fun e => is_debug e = false) (events Host.ci ["run-evaluator.py"]).
Proof.
  split.
  - apply (proj1 (debug_logs_extra_options Host.ci Host.argv)
             "run-evaluator.py" "book/html" "../violations.csv").
    reflexivity.
  - apply (proj2 (debug_logs_extra_options Host.ci ["run-evaluator.py"])).
    simpl. lia.
Defined.

(** ** No retries *)

(** Whatever the world answers, failures included, a run makes at most one
    provisioning call, starts at most one browser and runs at most one
    evaluator. *)
Theorem no_retries (w : World) (argv : list string) :
  (length (install_calls (events w argv)) <= 1)%nat /\
  (length (List.filter is_chrome (events w argv)) <= 1)%nat /\
  (length (List.filter is_run (events w argv)) <= 1)%nat.
Proof.
  shapes w argv; unfold started, prologue; simpl; lia.
Qed.
